(** * jobstats: the packaging script [setup.py]

    The repository slice holds one program, [setup.py]: it imports three
    modules, reads [README.md] inside a [with] block and calls
    [setuptools.setup] once with keyword arguments.  The script is embedded
    as a term of a small Python subset and run by an interpreter that
    threads the module namespace and a trace of every interaction with the
    outside world (the file system and setuptools).  The text of the file is
    kept next to it, line by line.  Below the interpreter, a machine holds
    the bytes on disk and the codec of the locale, from which the text that
    [read()] returns is computed. *)

From Stdlib Require Import String Ascii List.
From stdpp Require Import base strings gmap.
Import ListNotations.

Set Warnings "-register-all,-clear-no-such-hyp".
Local Open Scope string_scope.
Local Open Scope list_scope.

(** ** Syntax of the Python subset *)

Inductive expr : Type :=
| EStr (s : string)
| EBool (b : bool)
| EName (x : string)
| EAttr (e : expr) (a : string)
| ECall (f : expr) (args : list expr) (kwargs : list (string * expr))
| EList (es : list expr)
| ETuple (es : list expr).

Inductive stmt : Type :=
| SImport (m : string)
| SAssign (x : string) (e : expr)
| SExpr (e : expr)
| SWith (ctx : expr) (var : string) (body : list stmt)
| SIf (cond : expr) (thn els : list stmt)
| STry (body handler : list stmt).

(** ** Values, exceptions, the outside world *)

Inductive value : Type :=
| VNone
| VBool (b : bool)
| VStr (s : string)
| VList (vs : list value)
| VTuple (vs : list value)
| VDict (d : gmap string string)
| VModule (m : string)
| VModAttr (m a : string)
| VBuiltin (x : string)
| VFile (path : string)
| VMethod (self : value) (a : string).

Inductive exn : Type :=
| FileNotFoundError
| PermissionError
| UnicodeDecodeError
| OSError
| ModuleNotFoundError (m : string)
| NameError (x : string)
| AttributeError (a : string)
| TypeError
| DistutilsError (msg : string).

(** What [open(path)] followed by [read()] meets on disk.  [Readable s]
    holds the text that [read()] returns. *)
Inductive file : Type :=
| OpenFails (e : exn)
| ReadFails (e : exn)
| Readable (s : string).

Definition kwargs : Type := list (string * value).

Definition module_attr (m a : string) : string := m +:+ "." +:+ a.

(** The environment of one run: the command line and the process
    environment, which modules can be imported, the files, what
    [setuptools.find_packages()] answers in the working directory, and
    whether [setuptools.setup] raises on the arguments it is given. *)
Record world : Type := World {
  argv : list string;
  environ : gmap string string;
  installed : string -> bool;
  fs : string -> file;
  find_packages_result : exn + list string;
  setup_result : kwargs -> option exn
}.

Inductive event : Type :=
| EvOpen (path : string)
| EvRead (path : string)
| EvClose (path : string)
| EvFindPackages
| EvSetup (kw : kwargs).

Record state : Type := State {
  globals : gmap string value;
  trace : list event
}.

Inductive outcome (A : Type) : Type :=
| Ok (a : A)
| Raise (e : exn).
Arguments Ok {A} a.
Arguments Raise {A} e.

(** ** The state-and-exception monad of the interpreter *)

Definition M (A : Type) : Type := state -> outcome A * state.

Definition ret {A} (a : A) : M A := fun st => (Ok a, st).

Definition raise {A} (e : exn) : M A := fun st => (Raise e, st).

Definition bind {A B} (c : M A) (k : A -> M B) : M B :=
  fun st =>
    match c st with
    | (Ok a, st') => k a st'
    | (Raise e, st') => (Raise e, st')
    end.

Notation "x <- c ;; k" := (bind c (fun x => k))
  (at level 100, c at next level, right associativity).

Definition emit (ev : event) : M unit :=
  fun st => (Ok tt, State (globals st) (trace st ++ [ev])).

Definition store (x : string) (v : value) : M unit :=
  fun st => (Ok tt, State (<[x := v]> (globals st)) (trace st)).

(** Name resolution: the module namespace first, then the builtins. *)
Definition load (x : string) : M value :=
  fun st =>
    match globals st !! x with
    | Some v => (Ok v, st)
    | None =>
        if String.eqb x "open" then (Ok (VBuiltin "open"), st)
        else (Raise (NameError x), st)
    end.

(** Runs [c], then [fin] whatever [c] did, and keeps [c]'s outcome. *)
Definition finally {A} (c : M A) (fin : M unit) : M A :=
  fun st =>
    match c st with
    | (r, st') => (r, snd (fin st'))
    end.

(** Runs [c]; an exception of [c] is dropped and [h] runs instead. *)
Definition catch {A} (c : M A) (h : M A) : M A :=
  fun st =>
    match c st with
    | (Ok a, st') => (Ok a, st')
    | (Raise _, st') => h st'
    end.

(** ** Primitive operations *)

Section Interpreter.
Variable w : world.

(** [sys.argv] and [os.environ] are the two module attributes through which
    a script sees its command line and its environment variables. *)
Definition getattr (v : value) (a : string) : M value :=
  match v with
  | VModule m =>
      if String.eqb (module_attr m a) "sys.argv" then
        ret (VList (map VStr (argv w)))
      else if String.eqb (module_attr m a) "os.environ" then
        ret (VDict (environ w))
      else ret (VModAttr m a)
  | VFile p =>
      if String.eqb a "read" then ret (VMethod (VFile p) "read")
      else raise (AttributeError a)
  | _ => raise (AttributeError a)
  end.

Definition py_open (path : string) : M value :=
  _ <- emit (EvOpen path) ;;
  match fs w path with
  | OpenFails e => raise e
  | _ => ret (VFile path)
  end.

Definition py_read (path : string) : M value :=
  _ <- emit (EvRead path) ;;
  match fs w path with
  | Readable s => ret (VStr s)
  | ReadFails e => raise e
  | OpenFails e => raise e
  end.

Definition find_packages : M value :=
  _ <- emit EvFindPackages ;;
  match find_packages_result w with
  | inl e => raise e
  | inr ps => ret (VList (map VStr ps))
  end.

Definition setup (kw : kwargs) : M value :=
  _ <- emit (EvSetup kw) ;;
  match setup_result w kw with
  | Some e => raise e
  | None => ret VNone
  end.

Definition call (f : value) (args : list value) (kw : kwargs)
  : M value :=
  match f, args, kw with
  | VBuiltin "open", [VStr path], [] => py_open path
  | VMethod (VFile path) "read", [], [] => py_read path
  | VModAttr "setuptools" "find_packages", [], [] => find_packages
  | VModAttr "setuptools" "setup", [], _ => setup kw
  | _, _, _ => raise TypeError
  end.

(** ** The interpreter *)

Fixpoint eval (e : expr) : M value :=
  match e with
  | EStr s => ret (VStr s)
  | EBool b => ret (VBool b)
  | EName x => load x
  | EAttr e' a => v <- eval e' ;; getattr v a
  | ECall f args kws =>
      fv <- eval f ;;
      avs <- (fix evals (es : list expr) : M (list value) :=
                match es with
                | [] => ret []
                | e1 :: es' =>
                    v <- eval e1 ;; vs <- evals es' ;; ret (v :: vs)
                end) args ;;
      kvs <- (fix evalkw (ks : list (string * expr)) : M kwargs :=
                match ks with
                | [] => ret []
                | (k, e1) :: ks' =>
                    v <- eval e1 ;; kvs <- evalkw ks' ;; ret ((k, v) :: kvs)
                end) kws ;;
      call fv avs kvs
  | EList es =>
      vs <- (fix evals (es : list expr) : M (list value) :=
               match es with
               | [] => ret []
               | e1 :: es' =>
                   v <- eval e1 ;; vs <- evals es' ;; ret (v :: vs)
               end) es ;;
      ret (VList vs)
  | ETuple es =>
      vs <- (fix evals (es : list expr) : M (list value) :=
               match es with
               | [] => ret []
               | e1 :: es' =>
                   v <- eval e1 ;; vs <- evals es' ;; ret (v :: vs)
               end) es ;;
      ret (VTuple vs)
  end.

Fixpoint exec (s : stmt) : M unit :=
  let block :=
    fix block (ss : list stmt) : M unit :=
      match ss with
      | [] => ret tt
      | s1 :: ss' => _ <- exec s1 ;; block ss'
      end in
  match s with
  | SImport m =>
      if installed w m then store m (VModule m)
      else raise (ModuleNotFoundError m)
  | SAssign x e => v <- eval e ;; store x v
  | SExpr e => _ <- eval e ;; ret tt
  | SWith ctx var body =>
      v <- eval ctx ;;
      match v with
      | VFile p =>
          _ <- store var v ;;
          finally (block body) (emit (EvClose p))
      | _ => raise (AttributeError "__enter__")
      end
  | SIf cond thn els =>
      v <- eval cond ;;
      match v with
      | VBool true => block thn
      | VBool false => block els
      | _ => raise TypeError
      end
  | STry body handler => catch (block body) (block handler)
  end.

Fixpoint exec_block (ss : list stmt) : M unit :=
  match ss with
  | [] => ret tt
  | s :: ss' => _ <- exec s ;; exec_block ss'
  end.

End Interpreter.

(** ** The script *)

Definition setup_py : list stmt :=
  [ SImport "os";
    SImport "sys";
    SImport "setuptools";
    SWith (ECall (EName "open") [EStr "README.md"] []) "fp"
      [ SAssign "long_description"
          (ECall (EAttr (EName "fp") "read") [] []) ];
    SExpr
      (ECall (EAttr (EName "setuptools") "setup") []
         [ ("name", EStr "jobstats");
           ("version", EStr "1.2.5");
           ("author", EStr "Chance Nelson");
           ("author_email", EStr "chance-nelson@nau.edu");
           ("description", EStr "view Slurm job resource efficiencies");
           ("long_description", EName "long_description");
           ("long_description_content_type", EStr "text/markdown");
           ("url", EStr "https://github.com/nauhpc/jobstats");
           ("include_package_data", EBool true);
           ("packages",
             ECall (EAttr (EName "setuptools") "find_packages") [] []);
           ("scripts",
             EList [EStr "jobstats/jobstats";
                    EStr "jobstats/group_efficiency"]);
           ("data_files",
             EList [ETuple [EStr "config";
                            EList [EStr "jobstats/jobstats-config.ini"]]]);
           ("classifiers",
             EList
               [ EStr "Programming Language :: Python :: 3 :: Only";
                 EStr "License :: OSI Approved :: GNU General Public License v3 (GPLv3)";
                 EStr "Operating System :: POSIX :: Linux";
                 EStr "Environment :: Console";
                 EStr "Development Status :: 5 - Production/Stable" ]) ]) ].

(** The state in which no name is bound yet and nothing has happened.
    A module namespace is not empty when a script starts; [run_from]
    runs the script from any namespace, and outcome and trace are those
    of [run] ([run_from_agrees]). *)
Definition init_state : state := State ∅ [].

Definition run (w : world) : outcome unit * state :=
  exec_block w setup_py init_state.

(** A world in which everything the script touches is in order. *)
Definition demo_world : world :=
  World ["setup.py"; "install"] ∅ (fun _ => true)
        (fun p => if String.eqb p "README.md" then Readable "# jobstats"
                  else OpenFails FileNotFoundError)
        (inr ["jobstats"])
        (fun _ => None).


(** ** What a run does, read off the environment *)

(** The keyword arguments [setup.py] hands to [setuptools.setup] when
    [README.md] reads as [ld] and [find_packages()] answers [pkgs]. *)
Definition setup_kwargs (ld : string) (pkgs : list string) : kwargs :=
  [ ("name", VStr "jobstats");
    ("version", VStr "1.2.5");
    ("author", VStr "Chance Nelson");
    ("author_email", VStr "chance-nelson@nau.edu");
    ("description", VStr "view Slurm job resource efficiencies");
    ("long_description", VStr ld);
    ("long_description_content_type", VStr "text/markdown");
    ("url", VStr "https://github.com/nauhpc/jobstats");
    ("include_package_data", VBool true);
    ("packages", VList (map VStr pkgs));
    ("scripts",
      VList [VStr "jobstats/jobstats"; VStr "jobstats/group_efficiency"]);
    ("data_files",
      VList [VTuple [VStr "config";
                     VList [VStr "jobstats/jobstats-config.ini"]]]);
    ("classifiers",
      VList
        [ VStr "Programming Language :: Python :: 3 :: Only";
          VStr "License :: OSI Approved :: GNU General Public License v3 (GPLv3)";
          VStr "Operating System :: POSIX :: Linux";
          VStr "Environment :: Console";
          VStr "Development Status :: 5 - Production/Stable" ]) ].

Definition readme : string := "README.md".

(** Outcome and trace of the part of the script after the imports. *)
Definition body_summary (w : world) : outcome unit * list event :=
  match fs w readme with
  | OpenFails e => (Raise e, [EvOpen readme])
  | ReadFails e => (Raise e, [EvOpen readme; EvRead readme; EvClose readme])
  | Readable ld =>
      let pre := [EvOpen readme; EvRead readme; EvClose readme;
                  EvFindPackages] in
      match find_packages_result w with
      | inl e => (Raise e, pre)
      | inr pkgs =>
          let kw := setup_kwargs ld pkgs in
          match setup_result w kw with
          | Some e => (Raise e, pre ++ [EvSetup kw])
          | None => (Ok tt, pre ++ [EvSetup kw])
          end
      end
  end.

Definition run_summary (w : world) : outcome unit * list event :=
  if installed w "os" then
    if installed w "sys" then
      if installed w "setuptools" then body_summary w
      else (Raise (ModuleNotFoundError "setuptools"), [])
    else (Raise (ModuleNotFoundError "sys"), [])
  else (Raise (ModuleNotFoundError "os"), []).


(** ** The text of [setup.py] *)

Definition dq : string := String (ascii_of_nat 34) EmptyString.

Definition source_lines : list string :=
  [ "#!/usr/bin/env python";
    EmptyString;
    EmptyString;
    "import os";
    "import sys";
    "import setuptools";
    EmptyString;
    EmptyString;
    "with open(" +:+ dq +:+ "README.md" +:+ dq +:+ ") as fp:";
    "    long_description = fp.read()";
    EmptyString;
    "setuptools.setup(";
    "    name='jobstats',";
    "    version='1.2.5',";
    "    author='Chance Nelson',";
    "    author_email='chance-nelson@nau.edu',";
    "    description='view Slurm job resource efficiencies',";
    "    long_description=long_description,";
    "    long_description_content_type=" +:+ dq +:+ "text/markdown" +:+ dq +:+ ",";
    "    url=" +:+ dq +:+ "https://github.com/nauhpc/jobstats" +:+ dq +:+ ",";
    "    include_package_data=True,";
    "    packages=setuptools.find_packages(),";
    "    scripts=['jobstats/jobstats', 'jobstats/group_efficiency'],";
    "    data_files=[('config', ['jobstats/jobstats-config.ini'])],";
    "    classifiers=[";
    "        'Programming Language :: Python :: 3 :: Only',";
    "        'License :: OSI Approved :: GNU General Public License v3 (GPLv3)',";
    "        'Operating System :: POSIX :: Linux',";
    "        'Environment :: Console',";
    "        'Development Status :: 5 - Production/Stable',";
    "    ],";
    ")" ].

(** [mentions needle hay]: [needle] occurs somewhere in [hay]. *)
Fixpoint mentions (needle hay : string) : bool :=
  String.prefix needle hay ||
  match hay with
  | EmptyString => false
  | String _ hay' => mentions needle hay'
  end.

Definition text_mentions (needle : string) : bool :=
  existsb (mentions needle) source_lines.

(** Words that open a definition, a loop, a branch or a handler in Python.
    Each is taken with the blank or colon that follows it in a statement. *)
Definition control_words : list string :=
  [ "def "; "class "; "lambda"; "for "; "while "; "if "; "else:"; "elif ";
    "try:"; "except"; "finally:"; "raise "; "assert "; "return"; "yield" ].

(** ** Static analysis of the syntax tree *)

(** [dotted e]: the dotted name [a.b.c] when [e] is one. *)
Fixpoint dotted (e : expr) : option string :=
  match e with
  | EName x => Some x
  | EAttr e' a =>
      match dotted e' with
      | Some p => Some (module_attr p a)
      | None => None
      end
  | _ => None
  end.

(** Every name or dotted name an expression refers to, in source order. *)
Fixpoint refs (e : expr) : list string :=
  match e with
  | EStr _ | EBool _ => []
  | EName x => [x]
  | EAttr e' a =>
      match dotted e' with
      | Some p => [module_attr p a]
      | None => refs e'
      end
  | ECall f args kws =>
      refs f ++ flat_map refs args ++
      flat_map (fun ke => refs (snd ke)) kws
  | EList es | ETuple es => flat_map refs es
  end.

(** The functions an expression calls, in source order; a callee that is
    not a dotted name is listed as [<expr>]. *)
Fixpoint callees (e : expr) : list string :=
  match e with
  | EStr _ | EBool _ | EName _ => []
  | EAttr e' _ => callees e'
  | ECall f args kws =>
      match dotted f with Some p => p | None => "<expr>" end ::
      callees f ++ flat_map callees args ++
      flat_map (fun ke => callees (snd ke)) kws
  | EList es | ETuple es => flat_map callees es
  end.

Fixpoint literals (e : expr) : list string :=
  match e with
  | EStr s => [s]
  | EBool _ | EName _ => []
  | EAttr e' _ => literals e'
  | ECall f args kws =>
      literals f ++ flat_map literals args ++
      flat_map (fun ke => literals (snd ke)) kws
  | EList es | ETuple es => flat_map literals es
  end.

(** [on_exprs f s]: [f] over every expression of [s], nested blocks
    included, in source order. *)
Fixpoint on_exprs {A} (f : expr -> list A) (s : stmt) : list A :=
  match s with
  | SImport _ => []
  | SAssign _ e | SExpr e => f e
  | SWith c _ body => f c ++ flat_map (on_exprs f) body
  | SIf c thn els =>
      f c ++ flat_map (on_exprs f) thn ++ flat_map (on_exprs f) els
  | STry body handler =>
      flat_map (on_exprs f) body ++ flat_map (on_exprs f) handler
  end.

Fixpoint imports (s : stmt) : list string :=
  match s with
  | SImport m => [m]
  | SAssign _ _ | SExpr _ => []
  | SWith _ _ body => flat_map imports body
  | SIf _ thn els => flat_map imports thn ++ flat_map imports els
  | STry body handler => flat_map imports body ++ flat_map imports handler
  end.

(** The number of [try] statements (exception handlers) and of [if]
    statements (guards, error branches) in a statement.  A [with] block is
    neither: it closes its file and lets the exception through. *)
Fixpoint handlers (s : stmt) : nat :=
  match s with
  | SImport _ | SAssign _ _ | SExpr _ => 0
  | SWith _ _ body => list_sum (map handlers body)
  | SIf _ thn els =>
      S (list_sum (map handlers thn) + list_sum (map handlers els))
  | STry body handler =>
      S (list_sum (map handlers body) + list_sum (map handlers handler))
  end.

Inductive stmt_kind : Type := KImport | KAssign | KCall | KWith | KIf | KTry.

Definition kind_of (s : stmt) : stmt_kind :=
  match s with
  | SImport _ => KImport
  | SAssign _ _ => KAssign
  | SExpr _ => KCall
  | SWith _ _ _ => KWith
  | SIf _ _ _ => KIf
  | STry _ _ => KTry
  end.

(** ** Reading a trace and the arguments of a [setup] call *)

Definition setup_calls (tr : list event) : list kwargs :=
  flat_map (fun ev => match ev with EvSetup kw => [kw] | _ => [] end) tr.


Definition is_find_packages (ev : event) : bool :=
  match ev with EvFindPackages => true | _ => false end.

Definition is_readme_read (ev : event) : bool :=
  match ev with
  | EvOpen p | EvRead p | EvClose p => String.eqb p readme
  | _ => false
  end.

Fixpoint kwarg (k : string) (kw : kwargs) : option value :=
  match kw with
  | [] => None
  | (k', v) :: kw' => if String.eqb k k' then Some v else kwarg k kw'
  end.

Definition as_str (v : value) : option string :=
  match v with VStr s => Some s | _ => None end.

Definition as_strs (v : value) : option (list string) :=
  match v with VList vs => mapM as_str vs | _ => None end.

Fixpoint has_slash (p : string) : bool :=
  match p with
  | EmptyString => false
  | String c p' => Ascii.eqb c "/" || has_slash p'
  end.

(** [os.path.basename]: what follows the last slash.  setuptools installs
    a script, and a data file inside its directory, under this name. *)
Fixpoint basename (p : string) : string :=
  match p with
  | EmptyString => EmptyString
  | String c p' =>
      if has_slash p' then basename p'
      else if Ascii.eqb c "/" then p'
      else p
  end.

(** The names of the executables a [setup] call declares. *)
Definition script_names (kw : kwargs) : option (list string) :=
  match kwarg "scripts" kw with
  | Some v => map basename <$> as_strs v
  | None => Some []
  end.

Definition as_data_entry (v : value) : option (string * list string) :=
  match v with
  | VTuple [VStr dir; files] => pair dir <$> as_strs files
  | _ => None
  end.

(** The (directory, file name) pairs of the data files a [setup] call
    declares. *)
Definition data_file_targets (kw : kwargs) : option (list (string * string)) :=
  match kwarg "data_files" kw with
  | Some (VList entries) =>
      flat_map (fun df => map (fun f => (fst df, basename f)) (snd df))
        <$> mapM as_data_entry entries
  | Some _ => None
  | None => Some []
  end.

Definition classifiers_of (kw : kwargs) : list string :=
  match kwarg "classifiers" kw with
  | Some v => default [] (as_strs v)
  | None => []
  end.

(** The classifiers filed under a top-level topic such as
    [Operating System]. *)
Definition under (topic : string) (cs : list string) : list string :=
  List.filter (String.prefix (topic +:+ " :: ")) cs.

(** ** The environment, operation by operation *)

Definition imports_ok (w : world) : bool :=
  installed w "os" && installed w "sys" && installed w "setuptools".

Definition reaches_setup (w : world) : bool :=
  imports_ok w &&
  match fs w readme, find_packages_result w with
  | Readable _, inr _ => true
  | _, _ => false
  end.

Definition import_failure (w : world) (m : string) : option exn :=
  if installed w m then None else Some (ModuleNotFoundError m).

Definition open_failure (w : world) : option exn :=
  match fs w readme with OpenFails e => Some e | _ => None end.

Definition read_failure (w : world) : option exn :=
  match fs w readme with ReadFails e => Some e | _ => None end.

Definition find_packages_failure (w : world) : option exn :=
  match find_packages_result w with inl e => Some e | inr _ => None end.

Definition setup_failure (w : world) : option exn :=
  match fs w readme, find_packages_result w with
  | Readable ld, inr pkgs => setup_result w (setup_kwargs ld pkgs)
  | _, _ => None
  end.

(** What each operation of the script meets in [w], in program order. *)
Definition failures (w : world) : list (option exn) :=
  [ import_failure w "os"; import_failure w "sys";
    import_failure w "setuptools";
    open_failure w; read_failure w;
    find_packages_failure w; setup_failure w ].

Fixpoint first_failure (fl : list (option exn)) : option exn :=
  match fl with
  | [] => None
  | Some e :: _ => Some e
  | None :: fl' => first_failure fl'
  end.

(** ** Sample worlds *)

(** [demo_world] without [README.md]. *)
Definition no_readme_world : world :=
  World ["setup.py"; "install"] ∅ (fun _ => true)
        (fun _ => OpenFails FileNotFoundError)
        (inr ["jobstats"])
        (fun _ => None).

(** [demo_world] run from a directory that holds one more package. *)
Definition other_tree_world : world :=
  World ["setup.py"; "install"] ∅ (fun _ => true)
        (fs demo_world)
        (inr ["jobstats"; "tests"])
        (fun _ => None).

(** A script that does look at its command line, for comparison. *)
Definition argv_script : list stmt :=
  [ SImport "sys";
    SImport "setuptools";
    SExpr (ECall (EAttr (EName "setuptools") "setup") []
             [("script_args", EAttr (EName "sys") "argv")]) ].

(** A script that swallows the failure of [open], for comparison. *)
Definition guarded_script : list stmt :=
  [ STry [ SWith (ECall (EName "open") [EStr "README.md"] []) "fp"
             [ SAssign "long_description"
                 (ECall (EAttr (EName "fp") "read") [] []) ] ]
         [ SAssign "long_description" (EStr "jobstats") ] ].

Definition readable (f : file) : bool :=
  match f with Readable _ => true | _ => false end.

(** The [setup] invocations a run in [w] is expected to make. *)
Definition expected_calls (w : world) : list kwargs :=
  if imports_ok w then
    match fs w readme, find_packages_result w with
    | Readable ld, inr pkgs => [setup_kwargs ld pkgs]
    | _, _ => []
    end
  else [].

(** ** Further sample worlds and trace readers *)

(** [demo_world] on a machine without setuptools. *)
Definition no_setuptools_world : world :=
  World ["setup.py"; "install"] ∅
        (fun m => negb (String.eqb m "setuptools"))
        (fs demo_world)
        (inr ["jobstats"])
        (fun _ => None).

(** [demo_world] with a [README.md] that opens but does not decode. *)
Definition undecodable_world : world :=
  World ["setup.py"; "install"] ∅ (fun _ => true)
        (fun _ => ReadFails UnicodeDecodeError)
        (inr ["jobstats"])
        (fun _ => None).

(** [demo_world] in a directory that [find_packages()] cannot walk. *)
Definition unwalkable_world : world :=
  World ["setup.py"; "install"] ∅ (fun _ => true)
        (fs demo_world)
        (inl PermissionError)
        (fun _ => None).

(** The first of the three imported modules that is not installed. *)
Definition first_missing (w : world) : option string :=
  List.find (fun m => negb (installed w m)) ["os"; "sys"; "setuptools"].

Definition opens (f : file) : bool :=
  match f with OpenFails _ => false | _ => true end.

(** The keywords of the [setup] call, in source order. *)
Definition setup_keywords : list string :=
  [ "name"; "version"; "author"; "author_email"; "description";
    "long_description"; "long_description_content_type"; "url";
    "include_package_data"; "packages"; "scripts"; "data_files";
    "classifiers" ].


(** ** Bytes on disk and the text [read()] returns *)

Definition CR : ascii := ascii_of_nat 13.
Definition LF : ascii := ascii_of_nat 10.

(** Universal newlines, the default of [open] in text mode: on reading,
    every CR LF and every lone CR becomes LF. *)
Fixpoint universal_newlines (s : string) : string :=
  match s with
  | EmptyString => EmptyString
  | String c s' =>
      if Ascii.eqb c CR then
        match s' with
        | String c' s'' =>
            if Ascii.eqb c' LF then String LF (universal_newlines s'')
            else String LF (universal_newlines s')
        | EmptyString => String LF EmptyString
        end
      else String c (universal_newlines s')
  end.

Fixpoint has_cr (s : string) : bool :=
  match s with
  | EmptyString => false
  | String c s' => Ascii.eqb c CR || has_cr s'
  end.

Definition in_range (lo hi : nat) (c : ascii) : bool :=
  Nat.leb lo (nat_of_ascii c) && Nat.leb (nat_of_ascii c) hi.

(** The second byte a three-byte or four-byte UTF-8 sequence may have
    after the lead byte [b1] (no overlong forms, no surrogates, nothing
    above U+10FFFF). *)
Definition second_of_three (b1 b2 : ascii) : bool :=
  if in_range 224 224 b1 then in_range 160 191 b2
  else if in_range 237 237 b1 then in_range 128 159 b2
  else in_range 128 191 b2.

Definition second_of_four (b1 b2 : ascii) : bool :=
  if in_range 240 240 b1 then in_range 144 191 b2
  else if in_range 244 244 b1 then in_range 128 143 b2
  else in_range 128 191 b2.

(** Well-formed UTF-8, as the strict [utf-8] codec accepts it. *)
Fixpoint utf8_valid (s : string) : bool :=
  match s with
  | EmptyString => true
  | String b1 s1 =>
      if in_range 0 127 b1 then utf8_valid s1
      else
        match s1 with
        | EmptyString => false
        | String b2 s2 =>
            if in_range 194 223 b1 then
              in_range 128 191 b2 && utf8_valid s2
            else
              match s2 with
              | EmptyString => false
              | String b3 s3 =>
                  if in_range 224 239 b1 then
                    second_of_three b1 b2 && in_range 128 191 b3 &&
                    utf8_valid s3
                  else
                    match s3 with
                    | EmptyString => false
                    | String b4 s4 =>
                        in_range 240 244 b1 && second_of_four b1 b2 &&
                        in_range 128 191 b3 && in_range 128 191 b4 &&
                        utf8_valid s4
                    end
              end
        end
  end.

(** A text is held as its UTF-8 bytes.  The [utf-8] codec keeps
    well-formed content as it is and raises on anything else. *)
Definition utf8_decode (content : string) : exn + string :=
  if utf8_valid content then inr content else inl UnicodeDecodeError.

(** The [latin-1] codec: byte [b] is code point [b], which takes two
    bytes of UTF-8 from 128 on.  It never raises. *)
Fixpoint latin1_text (content : string) : string :=
  match content with
  | EmptyString => EmptyString
  | String b s' =>
      if in_range 0 127 b then String b (latin1_text s')
      else
        String (ascii_of_nat (192 + nat_of_ascii b / 64))
          (String (ascii_of_nat (128 + nat_of_ascii b mod 64))
             (latin1_text s'))
  end.

Definition latin1_decode (content : string) : exn + string :=
  inr (latin1_text content).

(** What is on disk under a path. *)
Inductive disk_file : Type :=
| Unopenable (e : exn)
| Unreadable (e : exn)
| Bytes (content : string).

(** The machine a run happens on.  [open(path)] with no further argument
    opens in text mode: [read()] decodes the bytes with the codec of the
    locale's preferred encoding, which the platform derives from the
    locale variables of the process, raises when they do not decode, and
    applies universal newlines to the result. *)
Record machine : Type := Machine {
  cli : list string;
  env_vars : gmap string string;
  modules : string -> bool;
  disk : string -> disk_file;
  locale_decode : string -> exn + string;
  package_tree : exn + list string;
  setuptools_setup : kwargs -> option exn
}.

Definition read_text (decode : string -> exn + string) (content : string)
  : file :=
  match decode content with
  | inl e => ReadFails e
  | inr text => Readable (universal_newlines text)
  end.

Definition text_file (decode : string -> exn + string) (d : disk_file)
  : file :=
  match d with
  | Unopenable e => OpenFails e
  | Unreadable e => ReadFails e
  | Bytes content => read_text decode content
  end.

(** The world the interpreter sees on machine [m]. *)
Definition world_of (m : machine) : world :=
  World (cli m) (env_vars m) (modules m)
        (fun path => text_file (locale_decode m) (disk m path))
        (package_tree m) (setuptools_setup m).

(** ** Runs from any module namespace *)






(** ** Sample machines and namespaces *)


Definition demo_machine : machine :=
  Machine ["setup.py"; "install"] ∅ (fun _ => true)
          (fun p => if String.eqb p "README.md" then Bytes "# jobstats"
                    else Unopenable FileNotFoundError)
          utf8_decode
          (inr ["jobstats"])
          (fun _ => None).

(** [a], CR, LF, [b]: a two-line file with DOS line ends. *)
Definition crlf_content : string :=
  String "a" (String CR (String LF (String "b" EmptyString))).

Definition lf_text : string :=
  String "a" (String LF (String "b" EmptyString)).

Definition crlf_machine : machine :=
  Machine ["setup.py"; "install"] ∅ (fun _ => true)
          (fun _ => Bytes crlf_content)
          utf8_decode
          (inr ["jobstats"])
          (fun _ => None).

(** The two bytes 195, 169: one letter in UTF-8, two in Latin-1. *)
Definition e_acute : string :=
  String (ascii_of_nat 195) (String (ascii_of_nat 169) EmptyString).

Definition utf8_machine : machine :=
  Machine ["setup.py"; "install"] ∅ (fun _ => true)
          (fun _ => Bytes e_acute)
          utf8_decode
          (inr ["jobstats"])
          (fun _ => None).

Definition latin1_machine : machine :=
  Machine ["setup.py"; "install"] ∅ (fun _ => true)
          (fun _ => Bytes e_acute)
          latin1_decode
          (inr ["jobstats"])
          (fun _ => None).

(** [demo_world] started with the script name alone. *)
Definition bare_argv_world : world :=
  World ["setup.py"] ∅ (installed demo_world) (fs demo_world)
        (find_packages_result demo_world) (setup_result demo_world).

(** Literals that name a file format or a protocol. *)
Definition format_marks : list string :=
  ["text/markdown"; ".md"; ".ini"; "://"].

Definition names_format (s : string) : bool :=
  existsb (fun mark => mentions mark s) format_marks.

(** [demo_machine] in a directory that holds one more package. *)
Definition other_tree_machine : machine :=
  Machine ["setup.py"; "install"] ∅ (fun _ => true)
          (disk demo_machine)
          utf8_decode
          (inr ["jobstats"; "tests"])
          (fun _ => None).


(** ** Symbolic execution of the script *)

Ltac sym_run :=
  cbv beta iota zeta delta
    [run exec_block exec eval bind ret raise emit store load finally catch
     getattr call py_open py_read find_packages setup module_attr
     fst snd globals trace
     argv environ fs installed find_packages_result setup_result
     String.eqb Ascii.eqb Bool.eqb String.append app map
     init_state setup_py run_summary body_summary readme setup_kwargs].

Ltac map_lookups :=
  repeat first
    [ rewrite lookup_insert_eq
    | rewrite lookup_insert_ne by (intro; discriminate)
    | rewrite lookup_empty ].

Ltac sym_steps := repeat (progress (sym_run; map_lookups)).

(** Case analysis on what the script meets in [w]. *)
Ltac case_world w :=
  unfold run_summary, body_summary, expected_calls, reaches_setup,
    imports_ok, failures, import_failure, open_failure, read_failure,
    find_packages_failure, setup_failure;
  destruct (installed w "os"), (installed w "sys"),
    (installed w "setuptools");
  cbn [andb fst snd first_failure];
  try reflexivity;
  destruct (fs w readme) as [?e|?e|?ld];
  cbn [fst snd first_failure];
  try reflexivity;
  destruct (find_packages_result w) as [?e|?pkgs];
  cbn [fst snd first_failure];
  try reflexivity;
  match goal with
  | |- context [setup_result w ?k] => destruct (setup_result w k)
  | _ => idtac
  end;
  cbn [fst snd first_failure];
  try reflexivity.



Lemma run_summary_ok (w : world) :
  (fst (run w), trace (snd (run w))) = run_summary w.
Proof.
  destruct w as [av env inst fsf fpr sr].
  sym_run.
  destruct (inst "os"); [|reflexivity].
  destruct (inst "sys"); [|reflexivity].
  destruct (inst "setuptools"); [|reflexivity].
  sym_steps.
  destruct (fsf "README.md") as [e|e|ld] eqn:E; sym_steps.
  - reflexivity.
  - rewrite E. reflexivity.
  - rewrite E. sym_steps.
    destruct fpr as [e|pkgs]; sym_steps; [reflexivity|].
    match goal with |- context [sr ?k] => destruct (sr k) end; reflexivity.
Qed.

Lemma run_outcome (w : world) : fst (run w) = fst (run_summary w).
Proof. now rewrite <- run_summary_ok. Qed.

Lemma run_trace (w : world) : trace (snd (run w)) = snd (run_summary w).
Proof. now rewrite <- run_summary_ok. Qed.

Lemma setup_calls_run (w : world) :
  setup_calls (trace (snd (run w))) = expected_calls w.
Proof. rewrite run_trace. case_world w. Qed.

Lemma setup_call_inv (w : world) (kw : kwargs) :
  In kw (setup_calls (trace (snd (run w)))) ->
  exists ld pkgs,
    fs w readme = Readable ld /\
    find_packages_result w = inr pkgs /\
    kw = setup_kwargs ld pkgs.
Proof.
  rewrite setup_calls_run. unfold expected_calls.
  destruct (imports_ok w); [|intros []].
  destruct (fs w readme) as [e|e|ld]; try (intros []).
  destruct (find_packages_result w) as [e|pkgs]; [intros []|].
  intros [<-|[]]. now exists ld, pkgs.
Qed.

(** *** Runs from any namespace *)






(** *** The text layer *)

Lemma universal_newlines_no_cr (s : string) :
  has_cr s = false -> universal_newlines s = s.
Proof.
  induction s as [|c s IH]; [reflexivity|].
  cbn [has_cr universal_newlines].
  destruct (Ascii.eqb c CR); [discriminate|].
  cbn [orb]. intros H. now rewrite IH.
Qed.

Lemma universal_newlines_has_no_cr (s : string) :
  has_cr (universal_newlines s) = false.
Proof.
  assert (G : forall n s, String.length s <= n ->
                          has_cr (universal_newlines s) = false).
  { clear s. induction n as [|n IH]; intros [|c s] Hlen;
      try reflexivity; cbn [String.length] in Hlen; [lia|].
    cbn [universal_newlines].
    destruct (Ascii.eqb c CR) eqn:Ec.
    - destruct s as [|c' s'].
      + reflexivity.
      + cbn [String.length] in Hlen.
        destruct (Ascii.eqb c' LF); cbn [has_cr];
          (replace (Ascii.eqb LF CR) with false by reflexivity);
          cbn [orb]; apply IH; cbn [String.length]; lia.
    - cbn [has_cr]. rewrite Ec. cbn [orb]. apply IH. lia. }
  apply (G (String.length s)). lia.
Qed.

Lemma fs_world_of (m : machine) (path : string) :
  fs (world_of m) path = text_file (locale_decode m) (disk m path).
Proof. reflexivity. Qed.

Example run_demo_world :
  fst (run demo_world) = Ok tt /\
  trace (snd (run demo_world)) =
    [ EvOpen readme; EvRead readme; EvClose readme; EvFindPackages;
      EvSetup (setup_kwargs "# jobstats" ["jobstats"]) ].
Proof. split; vm_compute; reflexivity. Qed.

Example text_holds_every_literal :
  forallb text_mentions (flat_map (on_exprs literals) setup_py) = true /\
  forallb text_mentions (flat_map (on_exprs refs) setup_py) = true.
Proof. split; vm_compute; reflexivity. Qed.

(** A [try] around the read turns the failure of [open] into a normal
    end of the block: the interpreter does catch when the program asks. *)
Example guarded_script_swallows :
  list_sum (map handlers guarded_script) = 1 /\
  fst (exec_block no_readme_world guarded_script init_state) = Ok tt.
Proof. split; vm_compute; reflexivity. Qed.

(** A script that passes [sys.argv] on hands a different argument to
    [setup] when the command line changes. *)
Example argv_script_depends_on_argv :
  setup_calls (trace (snd (exec_block demo_world argv_script init_state))) <>
  setup_calls (trace (snd (exec_block bare_argv_world argv_script
                             init_state))).
Proof. vm_compute. discriminate. Qed.

(** ** Declared metadata *)

(** C1: every [setup] invocation of every run declares exactly two
    scripts, [jobstats/jobstats] and [jobstats/group_efficiency], so the
    executables installed are named [jobstats] and [group_efficiency] and
    there are no others. *)
Theorem scripts_declared (w : world) (kw : kwargs) :
  In kw (setup_calls (trace (snd (run w)))) ->
  kwarg "scripts" kw =
    Some (VList [VStr "jobstats/jobstats"; VStr "jobstats/group_efficiency"])
  /\ script_names kw = Some ["jobstats"; "group_efficiency"].
Proof.
  intros H. destruct (setup_call_inv w kw H) as (ld & pkgs & _ & _ & ->).
  split; reflexivity.
Qed.

Lemma scripts_declared_witness :
  In (setup_kwargs "# jobstats" ["jobstats"])
     (setup_calls (trace (snd (run demo_world)))) /\
  script_names (setup_kwargs "# jobstats" ["jobstats"]) =
    Some ["jobstats"; "group_efficiency"].
Proof.
  assert (H : In (setup_kwargs "# jobstats" ["jobstats"])
                 (setup_calls (trace (snd (run demo_world)))))
    by (vm_compute; left; reflexivity).
  split; [exact H | exact (proj2 (scripts_declared demo_world _ H))].
Defined.

(** C2: every [setup] invocation declares exactly one data file,
    [jobstats-config.ini], and the directory it is declared for is
    [config]. *)
Theorem data_files_declared (w : world) (kw : kwargs) :
  In kw (setup_calls (trace (snd (run w)))) ->
  kwarg "data_files" kw =
    Some (VList [VTuple [VStr "config";
                         VList [VStr "jobstats/jobstats-config.ini"]]])
  /\ data_file_targets kw = Some [("config", "jobstats-config.ini")].
Proof.
  intros H. destruct (setup_call_inv w kw H) as (ld & pkgs & _ & _ & ->).
  split; reflexivity.
Qed.

Lemma data_files_declared_witness :
  In (setup_kwargs "# jobstats" ["jobstats"])
     (setup_calls (trace (snd (run demo_world)))) /\
  data_file_targets (setup_kwargs "# jobstats" ["jobstats"]) =
    Some [("config", "jobstats-config.ini")].
Proof.
  assert (H : In (setup_kwargs "# jobstats" ["jobstats"])
                 (setup_calls (trace (snd (run demo_world)))))
    by (vm_compute; left; reflexivity).
  split; [exact H | exact (proj2 (data_files_declared demo_world _ H))].
Defined.

(** C3: the classifiers of every [setup] invocation name one operating
    system, [Operating System :: POSIX :: Linux], and one language
    version, [Programming Language :: Python :: 3 :: Only], and nothing
    else under either topic. *)
Theorem classifiers_platform_runtime (w : world) (kw : kwargs) :
  In kw (setup_calls (trace (snd (run w)))) ->
  classifiers_of kw =
    [ "Programming Language :: Python :: 3 :: Only";
      "License :: OSI Approved :: GNU General Public License v3 (GPLv3)";
      "Operating System :: POSIX :: Linux";
      "Environment :: Console";
      "Development Status :: 5 - Production/Stable" ]
  /\ under "Operating System" (classifiers_of kw) =
       ["Operating System :: POSIX :: Linux"]
  /\ under "Programming Language" (classifiers_of kw) =
       ["Programming Language :: Python :: 3 :: Only"].
Proof.
  intros H. destruct (setup_call_inv w kw H) as (ld & pkgs & _ & _ & ->).
  repeat split; reflexivity.
Qed.

Lemma classifiers_platform_runtime_witness :
  In (setup_kwargs "# jobstats" ["jobstats"])
     (setup_calls (trace (snd (run demo_world)))) /\
  under "Operating System"
    (classifiers_of (setup_kwargs "# jobstats" ["jobstats"])) =
    ["Operating System :: POSIX :: Linux"].
Proof.
  assert (H : In (setup_kwargs "# jobstats" ["jobstats"])
                 (setup_calls (trace (snd (run demo_world)))))
    by (vm_compute; left; reflexivity).
  split; [exact H|].
  exact (proj1 (proj2 (classifiers_platform_runtime demo_world _ H))).
Defined.

(** ** Failures *)

(** C4: the script has no [try] and no [if], and whatever fails first
    among its operations (the three imports, opening and reading
    [README.md], [find_packages()], [setup]) ends the run with that very
    exception, unhandled; the run ends normally only when nothing fails. *)
Theorem no_error_handling :
  list_sum (map handlers setup_py) = 0 /\
  forall w : world,
    fst (run w) =
      match first_failure (failures w) with
      | Some e => Raise e
      | None => Ok tt
      end.
Proof.
  split; [reflexivity|].
  intros w. rewrite run_outcome. case_world w.
Qed.

(** C8: when [README.md] cannot be opened or read the run ends with an
    exception, [setup] has not been invoked, and [find_packages()] has
    not been asked either. *)
Theorem readme_failure_before_setup (w : world) :
  readable (fs w readme) = false ->
  (exists e, fst (run w) = Raise e) /\
  setup_calls (trace (snd (run w))) = [] /\
  existsb is_find_packages (trace (snd (run w))) = false.
Proof.
  intros H. rewrite run_outcome, run_trace.
  unfold run_summary, body_summary.
  destruct (installed w "os"), (installed w "sys"),
    (installed w "setuptools");
    cbn [fst snd setup_calls flat_map existsb];
    try (split; [eexists; reflexivity | split; reflexivity]).
  destruct (fs w readme) as [e|e|ld]; [| |discriminate H];
    (split; [eexists; reflexivity | split; reflexivity]).
Qed.

Lemma readme_failure_before_setup_witness :
  readable (fs no_readme_world readme) = false /\
  setup_calls (trace (snd (run no_readme_world))) = [].
Proof.
  split; [reflexivity|].
  exact (proj1 (proj2 (readme_failure_before_setup no_readme_world
                         eq_refl))).
Defined.

(** ** What the script refers to *)

(** C5, as the claim states it, fails: file formats and a protocol are
    visible in the slice.  Four literals of the script name one:
    [README.md], the content type [text/markdown], the [https://] URL
    and [jobstats-config.ini]. *)
Lemma source_names_formats_and_a_protocol :
  List.filter names_format (flat_map (on_exprs literals) setup_py) =
    [ "README.md"; "text/markdown"; "https://github.com/nauhpc/jobstats";
      "jobstats/jobstats-config.ini" ] /\
  map text_mentions ["text/markdown"; "https://"; ".ini"] =
    [true; true; true].
Proof. split; vm_compute; reflexivity. Qed.

(** C5, amended: no command-line flag and no environment variable is
    visible.  The script imports [os], [sys] and [setuptools], refers to
    five names in all, none of them an attribute of [os] or [sys], and
    its text mentions neither [argv] nor [environ] nor [getenv]; the
    [setup] invocations of a run are fixed by which modules import, the
    text read from [README.md] and the answer of [find_packages()].  The
    formats and the protocol that are visible are four string literals,
    and the script parses none of them: it calls [open], [fp.read],
    [setuptools.setup] and [setuptools.find_packages] and nothing else. *)
Theorem no_flags_or_environment :
  flat_map imports setup_py = ["os"; "sys"; "setuptools"] /\
  flat_map (on_exprs refs) setup_py =
    ["open"; "fp.read"; "setuptools.setup"; "long_description";
     "setuptools.find_packages"] /\
  flat_map (on_exprs callees) setup_py =
    ["open"; "fp.read"; "setuptools.setup"; "setuptools.find_packages"] /\
  forallb (fun r => negb (String.prefix "sys." r || String.prefix "os." r))
    (flat_map (on_exprs refs) setup_py) = true /\
  map text_mentions ["argv"; "environ"; "getenv"] = [false; false; false] /\
  List.filter names_format (flat_map (on_exprs literals) setup_py) =
    [ "README.md"; "text/markdown"; "https://github.com/nauhpc/jobstats";
      "jobstats/jobstats-config.ini" ] /\
  forall w : world, setup_calls (trace (snd (run w))) = expected_calls w.
Proof.
  repeat (split; [vm_compute; reflexivity|]).
  exact setup_calls_run.
Qed.

(** C6: the file has 32 lines (the last one unterminated); its five
    statements are three imports, the [with] block that reads
    [README.md] and the [setup] call; no line holds a word that opens a
    definition, a loop, a branch or a handler; and the only functions
    called are [open], [fp.read], [setuptools.setup] and
    [setuptools.find_packages]. *)
Theorem source_is_packaging_manifest :
  length source_lines = 32 /\
  map kind_of setup_py = [KImport; KImport; KImport; KWith; KCall] /\
  forallb (fun kw => negb (text_mentions kw)) control_words = true /\
  list_sum (map handlers setup_py) = 0 /\
  flat_map (on_exprs callees) setup_py =
    ["open"; "fp.read"; "setuptools.setup"; "setuptools.find_packages"].
Proof. repeat split; vm_compute; reflexivity. Qed.

(** ** Effects *)




(** ** The arguments of [setup] *)

Lemma setup_passes_read_text
    (w : world) (ld : string) (pkgs : list string) :
  imports_ok w = true ->
  fs w readme = Readable ld ->
  find_packages_result w = inr pkgs ->
  exists kw,
    setup_calls (trace (snd (run w))) = [kw] /\
    kwarg "long_description" kw = Some (VStr ld) /\
    kwarg "long_description_content_type" kw = Some (VStr "text/markdown").
Proof.
  intros Hi Hf Hp. exists (setup_kwargs ld pkgs).
  rewrite setup_calls_run. unfold expected_calls.
  rewrite Hi, Hf, Hp. repeat split; reflexivity.
Qed.

(** C9, as the claim states it, fails: a [README.md] that holds [a],
    CR, LF, [b] decodes to itself, and [long_description] is [a], LF,
    [b], which is not the content of the file. *)
Lemma crlf_readme_is_rewritten :
  disk crlf_machine readme = Bytes crlf_content /\
  locale_decode crlf_machine crlf_content = inr crlf_content /\
  map (kwarg "long_description")
      (setup_calls (trace (snd (run (world_of crlf_machine))))) =
    [Some (VStr lf_text)] /\
  lf_text <> crlf_content.
Proof.
  split; [reflexivity|]. split; [reflexivity|].
  split; [vm_compute; reflexivity | discriminate].
Qed.

(** C9, amended: for every content of [README.md] that decodes in the
    locale's encoding, [setup] is invoked once and its
    [long_description] is the text [fp.read()] returns, as it is: the
    decoded content with every CR LF and every lone CR turned into LF,
    hence the decoded content itself when that holds no CR; and
    [long_description_content_type] is [text/markdown]. *)
Theorem long_description_is_read_text
    (m : machine) (content text : string) (pkgs : list string) :
  imports_ok (world_of m) = true ->
  disk m readme = Bytes content ->
  locale_decode m content = inr text ->
  package_tree m = inr pkgs ->
  exists kw,
    setup_calls (trace (snd (run (world_of m)))) = [kw] /\
    kwarg "long_description" kw = Some (VStr (universal_newlines text)) /\
    kwarg "long_description_content_type" kw = Some (VStr "text/markdown") /\
    (has_cr text = false -> kwarg "long_description" kw = Some (VStr text)).
Proof.
  intros Hi Hd Ht Hp.
  assert (Hf : fs (world_of m) readme = Readable (universal_newlines text)).
  { rewrite fs_world_of, Hd. unfold text_file, read_text. now rewrite Ht. }
  destruct (setup_passes_read_text (world_of m) _ pkgs Hi Hf Hp)
    as (kw & Hc & Hl & Hct).
  exists kw. repeat split; try assumption.
  intros Hcr. now rewrite Hl, universal_newlines_no_cr.
Qed.

Lemma long_description_is_read_text_witness :
  exists kw,
    setup_calls (trace (snd (run (world_of crlf_machine)))) = [kw] /\
    kwarg "long_description" kw = Some (VStr lf_text).
Proof.
  destruct (long_description_is_read_text crlf_machine crlf_content
              crlf_content ["jobstats"] eq_refl eq_refl eq_refl eq_refl)
    as (kw & Hc & Hl & _).
  exists kw. split; [exact Hc | exact Hl].
Defined.

(** C10, as the claim states it, fails twice: two runs that read the
    same [README.md] in directories with different package trees hand
    different arguments to [setup]; and so do two runs over the same
    bytes and the same tree under two locales, one decoding UTF-8 and
    one Latin-1. *)
Lemma packages_depend_on_the_tree :
  fs demo_world readme = fs other_tree_world readme /\
  setup_calls (trace (snd (run demo_world))) <>
  setup_calls (trace (snd (run other_tree_world))) /\
  (disk utf8_machine readme = disk latin1_machine readme /\
   package_tree utf8_machine = package_tree latin1_machine /\
   map (kwarg "long_description")
       (setup_calls (trace (snd (run (world_of utf8_machine))))) <>
   map (kwarg "long_description")
       (setup_calls (trace (snd (run (world_of latin1_machine)))))).
Proof.
  split; [reflexivity|]. split; [vm_compute; discriminate|].
  split; [reflexivity|]. split; [reflexivity|].
  vm_compute. discriminate.
Qed.

Lemma kwarg_setup_kwargs_packages
    (ld : string) (p1 p2 : list string) (k : string) :
  k <> "packages" ->
  kwarg k (setup_kwargs ld p1) = kwarg k (setup_kwargs ld p2).
Proof.
  intros Hk. unfold setup_kwargs. cbn [kwarg].
  repeat match goal with
         | |- context [String.eqb k ?s] =>
             destruct (String.eqb_spec k s); [try reflexivity|]
         end;
    try reflexivity.
  contradiction.
Qed.

(** C10, amended: the arguments of [setup] depend only on the content
    of [README.md], on the encoding in which [open()] decodes it and on
    the answer of [find_packages()].  For two runs over the same content
    decoded alike, every argument other than [packages] is the same, and
    [packages] too when [find_packages()] answers the same in both;
    [name], [version], [scripts], [data_files] and [classifiers] are the
    same constants in every run, whatever the command line, the
    environment and the files are. *)
Theorem setup_arguments_determined (m1 m2 : machine) (kw1 kw2 : kwargs) :
  In kw1 (setup_calls (trace (snd (run (world_of m1))))) ->
  In kw2 (setup_calls (trace (snd (run (world_of m2))))) ->
  disk m1 readme = disk m2 readme ->
  (forall content, locale_decode m1 content = locale_decode m2 content) ->
  (forall k, k <> "packages" -> kwarg k kw1 = kwarg k kw2) /\
  (package_tree m1 = package_tree m2 -> kw1 = kw2) /\
  map (fun k => kwarg k kw1)
      ["name"; "version"; "scripts"; "data_files"; "classifiers"] =
  map (fun k => kwarg k (setup_kwargs EmptyString []))
      ["name"; "version"; "scripts"; "data_files"; "classifiers"] /\
  kwarg "name" kw1 = Some (VStr "jobstats") /\
  kwarg "version" kw1 = Some (VStr "1.2.5").
Proof.
  intros H1 H2 Hd Hdec.
  destruct (setup_call_inv _ kw1 H1) as (ld1 & p1 & F1 & P1 & ->).
  destruct (setup_call_inv _ kw2 H2) as (ld2 & p2 & F2 & P2 & ->).
  rewrite fs_world_of in F1, F2.
  assert (ld1 = ld2) as <-.
  { rewrite Hd in F1. unfold text_file, read_text in F1, F2.
    destruct (disk m2 readme) as [e|e|c]; try discriminate.
    rewrite Hdec in F1. congruence. }
  split; [|split; [|repeat split; reflexivity]].
  - intros k Hk. now apply kwarg_setup_kwargs_packages.
  - intros Hp. cbn [world_of find_packages_result] in P1, P2. congruence.
Qed.

Lemma setup_arguments_determined_witness :
  kwarg "scripts" (setup_kwargs "# jobstats" ["jobstats"]) =
  kwarg "scripts" (setup_kwargs "# jobstats" ["jobstats"; "tests"]).
Proof.
  assert (H1 : In (setup_kwargs "# jobstats" ["jobstats"])
                  (setup_calls (trace (snd (run (world_of demo_machine))))))
    by (vm_compute; left; reflexivity).
  assert (H2 : In (setup_kwargs "# jobstats" ["jobstats"; "tests"])
                  (setup_calls
                     (trace (snd (run (world_of other_tree_machine))))))
    by (vm_compute; left; reflexivity).
  refine (proj1 (setup_arguments_determined demo_machine other_tree_machine
                   _ _ H1 H2 eq_refl (fun _ => eq_refl)) "scripts" _).
  vm_compute. discriminate.
Defined.

(** ** Beyond the claims: imports, the file handle, the namespace *)

(** X1: when one of [os], [sys], [setuptools] cannot be imported the run
    ends with [ModuleNotFoundError] for the first missing one, before
    [README.md] is opened and before anything is asked of setuptools. *)
Theorem missing_module_stops_first (w : world) (m : string) :
  first_missing w = Some m ->
  fst (run w) = Raise (ModuleNotFoundError m) /\
  trace (snd (run w)) = [].
Proof.
  rewrite run_outcome, run_trace. unfold first_missing, run_summary.
  cbn [List.find].
  destruct (installed w "os"), (installed w "sys"),
    (installed w "setuptools"); cbn [negb];
    intros [= <-] || discriminate; split; reflexivity.
Qed.

Lemma missing_module_stops_first_witness :
  first_missing no_setuptools_world = Some "setuptools" /\
  trace (snd (run no_setuptools_world)) = [].
Proof.
  split; [reflexivity|].
  exact (proj2 (missing_module_stops_first no_setuptools_world
                  "setuptools" eq_refl)).
Defined.

(** X2: once [README.md] is open it is read once and closed at once,
    also when the read raises; the close comes before [find_packages()]
    and [setup], and nothing touches the file afterwards. *)
Theorem readme_closed_after_read (w : world) :
  imports_ok w = true ->
  opens (fs w readme) = true ->
  exists rest,
    trace (snd (run w)) =
      EvOpen readme :: EvRead readme :: EvClose readme :: rest /\
    existsb is_readme_read rest = false.
Proof.
  intros Hi Ho. rewrite run_trace. revert Hi Ho.
  unfold imports_ok, run_summary, body_summary.
  destruct (installed w "os"), (installed w "sys"),
    (installed w "setuptools"); try discriminate.
  intros _.
  destruct (fs w readme) as [e|e|ld]; [discriminate| |]; intros _.
  - exists []. split; reflexivity.
  - destruct (find_packages_result w) as [e|pkgs].
    + exists [EvFindPackages]. split; reflexivity.
    + destruct (setup_result w (setup_kwargs ld pkgs));
        exists [EvFindPackages; EvSetup (setup_kwargs ld pkgs)];
        split; reflexivity.
Qed.

Lemma readme_closed_after_read_witness :
  exists rest,
    trace (snd (run undecodable_world)) =
      EvOpen readme :: EvRead readme :: EvClose readme :: rest /\
    existsb is_readme_read rest = false.
Proof.
  exact (readme_closed_after_read undecodable_world eq_refl eq_refl).
Defined.

(** X3: when [find_packages()] raises, the run ends with that exception
    after [README.md] has been read and closed, and [setup] is not
    invoked: the arguments are evaluated before the call is made. *)
Theorem find_packages_failure_before_setup
    (w : world) (ld : string) (e : exn) :
  imports_ok w = true ->
  fs w readme = Readable ld ->
  find_packages_result w = inl e ->
  fst (run w) = Raise e /\
  trace (snd (run w)) =
    [EvOpen readme; EvRead readme; EvClose readme; EvFindPackages].
Proof.
  intros Hi Hf Hp. rewrite run_outcome, run_trace. revert Hi.
  unfold imports_ok, run_summary, body_summary.
  destruct (installed w "os"), (installed w "sys"),
    (installed w "setuptools"); try discriminate.
  intros _. rewrite Hf, Hp. split; reflexivity.
Qed.

Lemma find_packages_failure_before_setup_witness :
  fst (run unwalkable_world) = Raise PermissionError /\
  trace (snd (run unwalkable_world)) =
    [EvOpen readme; EvRead readme; EvClose readme; EvFindPackages].
Proof.
  exact (find_packages_failure_before_setup unwalkable_world "# jobstats"
           PermissionError eq_refl eq_refl eq_refl).
Defined.

(** X4: the [packages] argument of every [setup] invocation is the list
    [find_packages()] returned in that run, in the same order. *)
Theorem packages_is_find_packages (w : world) (kw : kwargs) :
  In kw (setup_calls (trace (snd (run w)))) ->
  exists pkgs,
    find_packages_result w = inr pkgs /\
    kwarg "packages" kw = Some (VList (map VStr pkgs)).
Proof.
  intros H. destruct (setup_call_inv w kw H) as (ld & pkgs & _ & Hp & ->).
  exists pkgs. split; [exact Hp | reflexivity].
Qed.

Lemma packages_is_find_packages_witness :
  exists pkgs,
    find_packages_result other_tree_world = inr pkgs /\
    kwarg "packages" (setup_kwargs "# jobstats" ["jobstats"; "tests"]) =
      Some (VList (map VStr pkgs)).
Proof.
  assert (H : In (setup_kwargs "# jobstats" ["jobstats"; "tests"])
                 (setup_calls (trace (snd (run other_tree_world)))))
    by (vm_compute; left; reflexivity).
  exact (packages_is_find_packages other_tree_world _ H).
Defined.

(** X5: every [setup] invocation is given the same thirteen keywords,
    each once and in source order, and the author, the contact address,
    the description, the URL and [include_package_data=True] are the
    literals of the source. *)
Theorem setup_keywords_and_metadata (w : world) (kw : kwargs) :
  In kw (setup_calls (trace (snd (run w)))) ->
  map fst kw = setup_keywords /\
  NoDup (map fst kw) /\
  kwarg "author" kw = Some (VStr "Chance Nelson") /\
  kwarg "author_email" kw = Some (VStr "chance-nelson@nau.edu") /\
  kwarg "description" kw =
    Some (VStr "view Slurm job resource efficiencies") /\
  kwarg "url" kw = Some (VStr "https://github.com/nauhpc/jobstats") /\
  kwarg "include_package_data" kw = Some (VBool true).
Proof.
  intros H. destruct (setup_call_inv w kw H) as (ld & pkgs & _ & _ & ->).
  split; [reflexivity|]. split; [|repeat split; reflexivity].
  apply (bool_decide_unpack _). vm_compute. exact I.
Qed.

Lemma setup_keywords_and_metadata_witness :
  map fst (setup_kwargs "# jobstats" ["jobstats"]) = setup_keywords.
Proof.
  assert (H : In (setup_kwargs "# jobstats" ["jobstats"])
                 (setup_calls (trace (snd (run demo_world)))))
    by (vm_compute; left; reflexivity).
  exact (proj1 (setup_keywords_and_metadata demo_world _ H)).
Defined.


